(** * The source-s3 v4 entry point ([v4_main.py])

    A shallow embedding of [get_source] and of the [__main__] driver of
    [airbyte-integrations/connectors/source-s3/v4_main.py], and the proofs
    of the properties its specification states.

    The entry point is glue around collaborators that live elsewhere
    (the catalog-path extractor, the connector class, the launcher, the
    clock, the traceback formatter).  They are taken as a record of
    collaborators; every call made to one of them, and every line printed,
    is recorded, in order, in a trace of events. *)

From Stdlib Require Import ZArith List String Ascii Bool Lia.
From Stdlib Require Import DecimalString.
From Stdlib Require Import Floats.SpecFloat.
Import ListNotations.

Local Open Scope string_scope.
Local Open Scope Z_scope.

(** ** Python floats (IEEE 754 binary64) *)

Module PyFloat.

Definition prec : Z := 53.
Definition emax : Z := 1024.

(** [float(n)] for an integer literal. *)
Definition of_Z (n : Z) : spec_float := binary_normalize prec emax n 0 false.

(** [x * y] on floats. *)
Definition mul (x y : spec_float) : spec_float := SFmul prec emax x y.

(** [x < y] on floats. *)
Definition ltb (x y : spec_float) : bool := SFltb x y.

(** The magnitude of a finite float [m * 2^e], truncated to an integer. *)
Definition trunc_mag (m : positive) (e : Z) : Z :=
  match e with
  | Zneg p => Z.shiftr (Zpos m) (Zpos p)
  | _ => Z.shiftl (Zpos m) e
  end.

(** [int(x)]: truncation towards zero.  [None] stands for the
    [OverflowError] (infinities) and [ValueError] (NaN) that [int] raises. *)
Definition to_int (x : spec_float) : option Z :=
  match x with
  | S754_zero _ => Some 0
  | S754_finite s m e => Some (cond_Zopp s (trunc_mag m e))
  | S754_infinity _ | S754_nan => None
  end.

(** The floats [datetime.timestamp()] can return: a well-formed binary64
    value of magnitude below [2^38] seconds ([datetime.max] is year 9999,
    about [2.5e11] seconds after the epoch; [datetime.min] is year 1). *)
Definition is_timestamp (x : spec_float) : bool :=
  match x with
  | S754_zero _ => true
  | S754_finite _ m e => bounded prec emax m e && (Zpos (digits2_pos m) + e <=? 38)
  | S754_infinity _ | S754_nan => false
  end.

End PyFloat.

(** A reading of [datetime.now().timestamp()]: seconds since the epoch. *)
Record timestamp := {
  ts_seconds :> spec_float;
  ts_in_range : PyFloat.is_timestamp ts_seconds = true
}.

(** ** JSON text

    The text of strings, integers and objects as Python's [json] encoder
    writes them by default: [", "] and [": "] as separators, and in
    strings every character outside the printable ASCII range escaped.  A
    string is taken as a sequence of code points below 256. *)

Module Json.

Definition dquote : string := String "034" EmptyString.
Definition backslash : string := String "092" EmptyString.

Definition hex_digit (n : N) : ascii :=
  ascii_of_N (if (n <? 10)%N then 48 + n else 87 + n)%N.

(** [\u00XX] for a code point below 256. *)
Definition u_escape (c : ascii) : string :=
  let n := N_of_ascii c in
  backslash ++ "u00" ++ String (hex_digit (n / 16)) (String (hex_digit (n mod 16)) EmptyString).

(** One character of a JSON string literal, with the encoder's default
    of escaping everything outside the printable ASCII range. *)
Definition escape_char (c : ascii) : string :=
  let n := N_of_ascii c in
  if (n =? 34)%N then backslash ++ dquote
  else if (n =? 92)%N then backslash ++ backslash
  else if (n =? 10)%N then backslash ++ "n"
  else if (n =? 13)%N then backslash ++ "r"
  else if (n =? 9)%N then backslash ++ "t"
  else if (n =? 8)%N then backslash ++ "b"
  else if (n =? 12)%N then backslash ++ "f"
  else if ((n <? 32) || (126 <? n))%N then u_escape c
  else String c EmptyString.

Fixpoint escape (s : string) : string :=
  match s with
  | EmptyString => EmptyString
  | String c rest => escape_char c ++ escape rest
  end.

Definition quoted (s : string) : string := dquote ++ escape s ++ dquote.

Definition int_text (n : Z) : string := NilZero.string_of_int (Z.to_int n).

(** One [key: value] member and an object of members, with the
    separators of the encoder's defaults. *)
Definition member (key text : string) : string := quoted key ++ ": " ++ text.

Definition object (members : list string) : string :=
  "{" ++ String.concat ", " members ++ "}".

End Json.

(** ** The protocol's message models

    The models of [airbyte_cdk.models] are declared outside the entry
    point's file; what follows is what the entry point and its
    specification say of them. *)

Module Models.

(** Modelled from the spec: the enumeration [Type] of [airbyte_cdk.models],
    of which the entry point names the member [TRACE], written ["TRACE"] in
    the record; the other members are the protocol's other message kinds. *)
Inductive Type_ := RECORD | STATE | LOG | SPEC | CONNECTION_STATUS | CATALOG | TRACE | CONTROL.

(** Modelled from the spec: the enumeration [TraceType] of
    [airbyte_cdk.models], of which the entry point names the member
    [ERROR], written ["ERROR"] in the record. *)
Inductive TraceType := ERROR | ESTIMATE | STREAM_STATUS.

(** Modelled from the spec: a member of [Type] is written by its name. *)
Definition Type_value (t : Type_) : string :=
  match t with
  | RECORD => "RECORD" | STATE => "STATE" | LOG => "LOG" | SPEC => "SPEC"
  | CONNECTION_STATUS => "CONNECTION_STATUS" | CATALOG => "CATALOG"
  | TRACE => "TRACE" | CONTROL => "CONTROL"
  end.

(** Modelled from the spec: a member of [TraceType] is written by its name. *)
Definition TraceType_value (t : TraceType) : string :=
  match t with
  | ERROR => "ERROR" | ESTIMATE => "ESTIMATE" | STREAM_STATUS => "STREAM_STATUS"
  end.

(** Modelled from the spec: the model [AirbyteErrorTraceMessage] of
    [airbyte_cdk.models], with the fields the entry point passes by keyword
    and the specification lists: [error: {message, stack_trace}]. *)
Record AirbyteErrorTraceMessage := {
  message : string;
  stack_trace : string
}.

(** Modelled from the spec: the model [AirbyteTraceMessage] of
    [airbyte_cdk.models]: [trace: {type, emitted_at, error}], with
    [emitted_at] an integer of epoch milliseconds. *)
Record AirbyteTraceMessage := {
  trace_type : TraceType;
  emitted_at : Z;
  error : AirbyteErrorTraceMessage
}.

(** Modelled from the spec: the model [AirbyteMessage] of
    [airbyte_cdk.models]: [{type, trace}]. *)
Record AirbyteMessage := {
  type : Type_;
  trace : AirbyteTraceMessage
}.

(** Modelled from the spec: the serializer of [AirbyteErrorTraceMessage],
    which writes the object [{message, stack_trace}] of two strings. *)
Definition error_json (e : AirbyteErrorTraceMessage) : string :=
  Json.object [Json.member "message" (Json.quoted (message e));
               Json.member "stack_trace" (Json.quoted (stack_trace e))].

(** Modelled from the spec: the serializer of [AirbyteTraceMessage], which
    writes the object [{type, emitted_at, error}]. *)
Definition trace_json (t : AirbyteTraceMessage) : string :=
  Json.object [Json.member "type" (Json.quoted (TraceType_value (trace_type t)));
               Json.member "emitted_at" (Json.int_text (emitted_at t));
               Json.member "error" (error_json (error t))].

(** Modelled from the spec: [AirbyteMessage(...).json()], the method of
    [airbyte_cdk.models] that serializes the record; it writes the shape
    the specification gives for standard output,
    [{type: TRACE, trace: {type: ERROR, emitted_at: int, error: {message, stack_trace}}}]. *)
Definition json (m : AirbyteMessage) : string :=
  Json.object [Json.member "type" (Json.quoted (Type_value (type m)));
               Json.member "trace" (trace_json (trace m))].

End Models.

(** ** The entry point *)

(** [Config] and [Cursor] are the two classes the entry point hands to the
    connector: fixed values, never instantiated here. *)
Inductive spec_class := Config.
Inductive cursor_class := Cursor.

(** The value of [int(datetime.now().timestamp() * 1000)] for a clock
    reading.  [int] raises on infinities and NaN only;
    [epoch_millis_defined] below shows that no timestamp times 1000 is one
    of them, so the last branch is never taken. *)
Definition epoch_millis (now : timestamp) : Z :=
  match PyFloat.to_int (PyFloat.mul now (PyFloat.of_Z 1000)) with
  | Some n => n
  | None => 0
  end.

Definition error_message : string :=
  "Error starting the sync. This could be due to an invalid configuration or catalog. Please contact Support for assistance.".

Section Entrypoint.

(** Exceptions, stream readers and connectors are opaque objects. *)
Variables Exc Reader Source : Type.

(** The collaborators, as one run of the process sees them.  A call that
    raises returns [inl] of the exception.  The clock, the traceback
    formatter, the serializer and [print] are taken to return. *)
Record Collaborators := {
  (** [AirbyteEntrypoint.extract_catalog(args)] *)
  extract_catalog : list string -> Exc + option string;
  (** [SourceS3StreamReader()] *)
  SourceS3StreamReader : Exc + Reader;
  (** [SourceS3(reader, Config, catalog_path, cursor_cls=Cursor)] *)
  SourceS3 : Reader -> spec_class -> option string -> cursor_class -> Exc + Source;
  (** [datetime.now().timestamp()] *)
  now_timestamp : timestamp;
  (** [traceback.format_exc()] while the exception is being handled *)
  format_exc : Exc -> string;
  (** [isinstance(e, Exception)]: false for [SystemExit],
      [KeyboardInterrupt] and the other direct heirs of [BaseException] *)
  isinstance_Exception : Exc -> bool;
  (** the [OverflowError] or [ValueError] that [int] raises on a float it
      cannot convert *)
  int_error : spec_float -> Exc;
  (** [bool(source)], the test of [if source:] *)
  truthy : Source -> bool;
  (** [launch(source, args)] *)
  launch : Source -> list string -> Exc + unit
}.

(** What the process does, in order. *)
Inductive event :=
| CallExtractCatalog (args : list string)
| CallStreamReader
| CallSourceS3 (reader : Reader) (spec : spec_class)
               (catalog_path : option string) (cursor_cls : cursor_class)
| CallNow
| CallFormatExc
| Print (line : string)
| CallLaunch (source : Source) (args : list string).

Definition trace := list event.

(** A computation extends the trace and either returns or raises. *)
Definition M (A : Type) : Type := trace -> (Exc + A) * trace.

Definition ret {A} (a : A) : M A := fun tr => (inr a, tr).

Definition bind {A B} (m : M A) (k : A -> M B) : M B :=
  fun tr =>
    match m tr with
    | (inl e, tr') => (inl e, tr')
    | (inr a, tr') => k a tr'
    end.

(** A call to a collaborator: the event is recorded, then the call
    returns or raises. *)
Definition call {A} (ev : event) (outcome : Exc + A) : M A :=
  fun tr => (outcome, (tr ++ [ev])%list).

(** [print(line)] *)
Definition print (line : string) : M unit := call (Print line) (inr tt).

Variable env : Collaborators.

(** [int(x)] on a float: no collaborator is called. *)
Definition py_int (x : spec_float) : M Z :=
  fun tr =>
    match PyFloat.to_int x with
    | Some n => (inr n, tr)
    | None => (inl (int_error env x), tr)
    end.

(** [try: body / except Exception: handler] *)
Definition try_except_Exception {A} (body : M A) (handler : Exc -> M A) : M A :=
  fun tr =>
    match body tr with
    | (inl e, tr') =>
        if isinstance_Exception env e then handler e tr' else (inl e, tr')
    | (inr a, tr') => (inr a, tr')
    end.

Notation "x <- m ;; k" := (bind m (fun x => k))
  (at level 61, m at next level, right associativity).
Notation "m ;;; k" := (bind m (fun _ => k))
  (at level 61, right associativity).

Definition get_source (args : list string) : M (option Source) :=
  catalog_path <- call (CallExtractCatalog args) (extract_catalog env args) ;;
  try_except_Exception
    (reader <- call CallStreamReader (SourceS3StreamReader env) ;;
     source <- call (CallSourceS3 reader Config catalog_path Cursor)
                    (SourceS3 env reader Config catalog_path Cursor) ;;
     ret (Some source))
    (fun e =>
       now <- call CallNow (inr (now_timestamp env)) ;;
       millis <- py_int (PyFloat.mul now (PyFloat.of_Z 1000)) ;;
       tb <- call CallFormatExc (inr (format_exc env e)) ;;
       print (Models.json
                {| Models.type := Models.TRACE;
                   Models.trace :=
                     {| Models.trace_type := Models.ERROR;
                        Models.emitted_at := millis;
                        Models.error :=
                          {| Models.message := error_message;
                             Models.stack_trace := tb |} |} |}) ;;;
       ret None).

(** The [__main__] block; [argv] is [sys.argv]. *)
Definition main (argv : list string) : M unit :=
  let _args := tl argv in
  source <- get_source _args ;;
  match source with
  | Some s =>
      if truthy env s then call (CallLaunch s _args) (launch env s _args)
      else ret tt
  | None => ret tt
  end.

(** *** Observations on a trace *)

Definition printed (tr : trace) : list string :=
  flat_map (fun ev => match ev with Print line => [line] | _ => [] end) tr.

Definition newline : string := String "010" EmptyString.

(** The text on standard output: [print] ends each line with a newline. *)
Definition stdout (tr : trace) : string :=
  String.concat EmptyString (map (fun line => line ++ newline) (printed tr)).

Definition launches (tr : trace) : list (Source * list string) :=
  flat_map (fun ev => match ev with CallLaunch s a => [(s, a)] | _ => [] end) tr.

Definition constructions (tr : trace) : list (option string) :=
  flat_map (fun ev => match ev with CallSourceS3 _ _ c _ => [c] | _ => [] end) tr.

End Entrypoint.

Arguments extract_catalog {Exc Reader Source}.
Arguments SourceS3StreamReader {Exc Reader Source}.
Arguments SourceS3 {Exc Reader Source}.
Arguments now_timestamp {Exc Reader Source}.
Arguments format_exc {Exc Reader Source}.
Arguments isinstance_Exception {Exc Reader Source}.
Arguments int_error {Exc Reader Source}.
Arguments truthy {Exc Reader Source}.
Arguments launch {Exc Reader Source}.
Arguments CallExtractCatalog {Reader Source}.
Arguments CallStreamReader {Reader Source}.
Arguments CallSourceS3 {Reader Source}.
Arguments CallNow {Reader Source}.
Arguments CallFormatExc {Reader Source}.
Arguments Print {Reader Source}.
Arguments CallLaunch {Reader Source}.
Arguments get_source {Exc Reader Source}.
Arguments main {Exc Reader Source}.
Arguments printed {Reader Source}.
Arguments stdout {Reader Source}.
Arguments launches {Reader Source}.
Arguments constructions {Reader Source}.

(** ** Vocabulary of the contracts *)

Section Contracts.

Context {Exc Reader Source : Type}.

(** The record built in the [except] branch. *)
Definition error_record (now : timestamp) (tb : string) : Models.AirbyteMessage :=
  {| Models.type := Models.TRACE;
     Models.trace :=
       {| Models.trace_type := Models.ERROR;
          Models.emitted_at := epoch_millis now;
          Models.error :=
            {| Models.message := error_message;
               Models.stack_trace := tb |} |} |}.

Variable env : Collaborators Exc Reader Source.

(** The outcome of the body of the [try], connector construction: the
    stream reader is built first, then the connector. *)
Definition construction (catalog_path : option string) : Exc + Source :=
  match SourceS3StreamReader env with
  | inl e => inl e
  | inr reader => SourceS3 env reader Config catalog_path Cursor
  end.

(** The collaborator calls construction makes. *)
Definition construction_events (catalog_path : option string) : trace Reader Source :=
  match SourceS3StreamReader env with
  | inl _ => [CallStreamReader]
  | inr reader => [CallStreamReader; CallSourceS3 reader Config catalog_path Cursor]
  end.

(** The line the [except] branch prints for the exception [e]. *)
Definition error_line (e : Exc) : string :=
  Models.json (error_record (now_timestamp env) (format_exc env e)).

(** The events of the [except] branch. *)
Definition handler_events (e : Exc) : trace Reader Source :=
  [CallNow; CallFormatExc; Print (error_line e)].

(** The error-emission contract: [get_source] returns, its value is
    [None], and standard output holds the error record for [e] and
    nothing else. *)
Definition reports_failure (args : list string) (e : Exc) : Prop :=
  exists tr, get_source env args [] = (inr None, tr) /\ printed tr = [error_line e].

(** [get_source] lets the exception [e] through. *)
Definition propagates (args : list string) (e : Exc) : Prop :=
  exists tr, get_source env args [] = (inl e, tr) /\ printed tr = [].

(** The four ways a run of [get_source] from the empty trace can go,
    with the value it returns or the exception it raises, and its trace. *)
Inductive outcome (args : list string) : Exc + option Source -> trace Reader Source -> Prop :=
| ExtractionRaised e :
    extract_catalog env args = inl e ->
    outcome args (inl e) [CallExtractCatalog args]
| Constructed c s :
    extract_catalog env args = inr c ->
    construction c = inr s ->
    outcome args (inr (Some s)) (CallExtractCatalog args :: construction_events c)
| Reported c e :
    extract_catalog env args = inr c ->
    construction c = inl e ->
    isinstance_Exception env e = true ->
    outcome args (inr None)
      (CallExtractCatalog args :: construction_events c ++ handler_events e)%list
| Escaped c e :
    extract_catalog env args = inr c ->
    construction c = inl e ->
    isinstance_Exception env e = false ->
    outcome args (inl e) (CallExtractCatalog args :: construction_events c).

End Contracts.

(** Two outcomes of a collaborator, in two runs, that the entry point
    cannot tell apart: the same value returned, or two exceptions of the
    same traceback text that [except Exception] treats alike. *)
Definition alike {Exc Reader Source A : Type}
    (env1 env2 : Collaborators Exc Reader Source) (o1 o2 : Exc + A) : Prop :=
  match o1, o2 with
  | inr a1, inr a2 => a1 = a2
  | inl e1, inl e2 =>
      format_exc env1 e1 = format_exc env2 e2 /\
      isinstance_Exception env1 e1 = isinstance_Exception env2 e2
  | _, _ => False
  end.

(** The text of the error record as the specification of the standard
    output interface writes it, for an [emitted_at] and a [stack_trace]:
    the keys, their order, the separators and the message are fixed. *)
Definition spec_error_text (emitted_at : Z) (stack_trace : string) : string :=
  let lit (s : string) := Json.dquote ++ s ++ Json.dquote in
  "{" ++ lit "type" ++ ": " ++ lit "TRACE" ++ ", " ++
  lit "trace" ++ ": " ++
    "{" ++ lit "type" ++ ": " ++ lit "ERROR" ++ ", " ++
    lit "emitted_at" ++ ": " ++ Json.int_text emitted_at ++ ", " ++
    lit "error" ++ ": " ++
      "{" ++ lit "message" ++ ": " ++
      lit "Error starting the sync. This could be due to an invalid configuration or catalog. Please contact Support for assistance." ++ ", " ++
      lit "stack_trace" ++ ": " ++ Json.quoted stack_trace ++
      "}" ++
    "}" ++
  "}".

(** The whole milliseconds in [1000 * m * 2^e], the exact product of a
    positive finite float and 1000. *)
Definition millis_floor (m : positive) (e : Z) : Z :=
  match e with
  | Zneg p => (1000 * Zpos m) / 2 ^ Zpos p
  | _ => 1000 * Zpos m * 2 ^ e
  end.

(** The whole milliseconds in the magnitude of a clock reading, in exact
    arithmetic. *)
Definition whole_millis (t : spec_float) : Z :=
  match t with
  | S754_finite _ m e => millis_floor m e
  | _ => 0
  end.

(** Does the character occur in the string? *)
Fixpoint occurs (c : ascii) (s : string) : bool :=
  match s with
  | EmptyString => false
  | String c' rest => Ascii.eqb c c' || occurs c rest
  end.

(** ** Sample runs

    Concrete collaborators, to run the entry point on. *)

Module Sample.

(** A few Python exceptions: the first two derive from [Exception], the
    last two from [BaseException] only. *)
Inductive exc := ValidationError | ValueError | SystemExit | KeyboardInterrupt.

Definition is_Exception (e : exc) : bool :=
  match e with
  | ValidationError | ValueError => true
  | SystemExit | KeyboardInterrupt => false
  end.

Definition traceback (e : exc) : string :=
  "Traceback (most recent call last):" ++ newline ++
  match e with
  | ValidationError => "ValidationError: 1 validation error for Config"
  | ValueError => "ValueError: unreadable arguments"
  | SystemExit => "SystemExit: 2"
  | KeyboardInterrupt => "KeyboardInterrupt"
  end ++ newline.

(** 1700000000.123, a moment in November 2023. *)
Definition nov_2023 : timestamp :=
  {| ts_seconds := S754_finite false 7130316800515899 (-22);
     ts_in_range := eq_refl |}.

(** 1700000000.102 to the nearest float, just below it: the exact product
    with 1000 is a little under 1700000000102 and rounds up to it. *)
Definition rounds_up : timestamp :=
  {| ts_seconds := S754_finite false 7130316800427819 (-22);
     ts_in_range := eq_refl |}.

(** One second before the epoch. *)
Definition before_epoch : timestamp :=
  {| ts_seconds := S754_finite true 4503599627370496 (-52);
     ts_in_range := eq_refl |}.

Inductive reader := StreamReader.

(** A connector remembers the catalog path it was built with. *)
Inductive source := Connector (catalog_path : option string).

Definition collaborators
    (extract : list string -> exc + option string)
    (construct : option string -> exc + source)
    (run : source -> list string -> exc + unit) : Collaborators exc reader source :=
  {| extract_catalog := extract;
     SourceS3StreamReader := inr StreamReader;
     SourceS3 := fun _ _ catalog_path _ => construct catalog_path;
     now_timestamp := nov_2023;
     format_exc := traceback;
     isinstance_Exception := is_Exception;
     int_error := fun _ => ValueError;
     truthy := fun _ => true;
     launch := run |}.

(** The catalog path is the argument after [--catalog], when there is one. *)
Fixpoint catalog_of (args : list string) : option string :=
  match args with
  | flag :: ((path :: _) as rest) =>
      if String.eqb flag "--catalog" then Some path else catalog_of rest
  | _ => None
  end.

Definition read_args : list string :=
  ["read"; "--config"; "secrets/config.json"; "--catalog"; "catalog.json"].

Definition argv : list string := "v4_main.py" :: read_args.

Definition finishes (s : source) (args : list string) : exc + unit := inr tt.

(** Every collaborator succeeds. *)
Definition healthy : Collaborators exc reader source :=
  collaborators (fun args => inr (catalog_of args)) (fun c => inr (Connector c)) finishes.

(** The configuration fails validation inside the constructor. *)
Definition invalid_config : Collaborators exc reader source :=
  collaborators (fun args => inr (catalog_of args)) (fun _ => inl ValidationError) finishes.

(** The same, with a launcher that would be interrupted. *)
Definition invalid_config_interrupted : Collaborators exc reader source :=
  collaborators (fun args => inr (catalog_of args)) (fun _ => inl ValidationError)
                (fun _ _ => inl KeyboardInterrupt).

(** The constructor ends the process with [sys.exit]. *)
Definition exiting_constructor : Collaborators exc reader source :=
  collaborators (fun args => inr (catalog_of args)) (fun _ => inl SystemExit) finishes.

(** The argument parser behind the extractor ends the process. *)
Definition rejecting_parser : Collaborators exc reader source :=
  collaborators (fun _ => inl SystemExit) (fun c => inr (Connector c)) finishes.

(** The extractor itself fails on the arguments. *)
Definition failing_extractor : Collaborators exc reader source :=
  collaborators (fun _ => inl ValueError) (fun c => inr (Connector c)) finishes.

End Sample.

(** ** Further observations and sample runs *)

(** How many times the clock was read. *)
Definition clock_reads {Reader Source : Type} (tr : trace Reader Source) : nat :=
  List.length (filter (fun ev => match ev with CallNow => true | _ => false end) tr).

(** How many times a traceback was formatted. *)
Definition tracebacks {Reader Source : Type} (tr : trace Reader Source) : nat :=
  List.length (filter (fun ev => match ev with CallFormatExc => true | _ => false end) tr).

Module MoreSamples.

(** The stream reader cannot be built. *)
Definition broken_reader : Collaborators Sample.exc Sample.reader Sample.source :=
  {| extract_catalog := fun args => inr (Sample.catalog_of args);
     SourceS3StreamReader := inl Sample.ValueError;
     SourceS3 := fun _ _ catalog_path _ => inr (Sample.Connector catalog_path);
     now_timestamp := Sample.nov_2023;
     format_exc := Sample.traceback;
     isinstance_Exception := Sample.is_Exception;
     int_error := fun _ => Sample.ValueError;
     truthy := fun _ => true;
     launch := Sample.finishes |}.

(** A connector class whose objects are falsy when they have no catalog. *)
Definition falsy_without_catalog : Collaborators Sample.exc Sample.reader Sample.source :=
  {| extract_catalog := fun args => inr (Sample.catalog_of args);
     SourceS3StreamReader := inr Sample.StreamReader;
     SourceS3 := fun _ _ catalog_path _ => inr (Sample.Connector catalog_path);
     now_timestamp := Sample.nov_2023;
     format_exc := Sample.traceback;
     isinstance_Exception := Sample.is_Exception;
     int_error := fun _ => Sample.ValueError;
     truthy := fun s => match s with
                        | Sample.Connector (Some _) => true
                        | Sample.Connector None => false
                        end;
     launch := Sample.finishes |}.

(** The configuration is invalid and the clock is set before the epoch. *)
Definition invalid_config_in_1969 : Collaborators Sample.exc Sample.reader Sample.source :=
  {| extract_catalog := fun args => inr (Sample.catalog_of args);
     SourceS3StreamReader := inr Sample.StreamReader;
     SourceS3 := fun _ _ _ _ => inl Sample.ValidationError;
     now_timestamp := Sample.before_epoch;
     format_exc := Sample.traceback;
     isinstance_Exception := Sample.is_Exception;
     int_error := fun _ => Sample.ValueError;
     truthy := fun _ => true;
     launch := Sample.finishes |}.

Definition check_args : list string := ["check"; "--config"; "secrets/config.json"].

End MoreSamples.

(** * Proofs *)

Local Open Scope list_scope.

(** ** Rounding in binary64 *)

Section BinaryRounding.

Lemma digits2_pos_log2 (p : positive) :
  Zpos (digits2_pos p) = Z.log2 (Zpos p) + 1.
Proof.
  assert (Hsize : forall q, digits2_pos q = Pos.size q)
    by (induction q; simpl; congruence).
  destruct p; simpl; rewrite ?Hsize; lia.
Qed.

Lemma Zdigits2_log2 (m : Z) : 0 < m -> Zdigits2 m = Z.log2 m + 1.
Proof. destruct m; try lia. intros _. apply digits2_pos_log2. Qed.

Lemma shr_1_bounds (mrs : shr_record) :
  0 <= shr_m mrs -> 0 <= shr_m (shr_1 mrs) <= shr_m mrs.
Proof.
  destruct mrs as [m r s]. simpl.
  destruct m as [| [p | p |] | p]; simpl; lia.
Qed.

Lemma iter_shr_1_bounds (n : positive) :
  forall mrs, 0 <= shr_m mrs -> 0 <= shr_m (iter_pos shr_1 n mrs) <= shr_m mrs.
Proof.
  induction n as [n IH | n IH |]; intros mrs Hm; simpl.
  - pose proof (shr_1_bounds mrs Hm) as H1.
    pose proof (IH _ (proj1 H1)) as H2.
    pose proof (IH _ (proj1 H2)) as H3. lia.
  - pose proof (IH _ Hm) as H2.
    pose proof (IH _ (proj1 H2)) as H3. lia.
  - apply shr_1_bounds, Hm.
Qed.

Lemma round_nearest_even_bounds (m : Z) (l : location) :
  m <= round_nearest_even m l <= m + 1.
Proof.
  destruct l as [| []]; simpl; try lia.
  destruct (Z.even m); lia.
Qed.

Lemma shr_1_div2 (mrs : shr_record) :
  0 <= shr_m mrs -> shr_m (shr_1 mrs) = shr_m mrs / 2.
Proof.
  destruct mrs as [m r s]. simpl.
  destruct m as [| [p | p |] | p]; simpl; intros H.
  - reflexivity.
  - apply (Z.div_unique _ _ _ 1); lia.
  - apply (Z.div_unique _ _ _ 0); lia.
  - reflexivity.
  - lia.
Qed.

Lemma iter_shr_1_div (n : positive) :
  forall mrs, 0 <= shr_m mrs ->
    shr_m (iter_pos shr_1 n mrs) = shr_m mrs / 2 ^ Zpos n.
Proof.
  induction n as [n IH | n IH |]; intros mrs Hm; simpl iter_pos.
  - pose proof (shr_1_bounds mrs Hm) as H1.
    pose proof (iter_shr_1_bounds n _ (proj1 H1)) as H2.
    rewrite IH by lia. rewrite IH by lia. rewrite shr_1_div2 by lia.
    rewrite !Z.div_div by (try apply Z.pow_pos_nonneg; lia).
    f_equal. replace (Zpos n~1) with (1 + Zpos n + Zpos n) by lia.
    rewrite (Z.pow_add_r 2 (1 + Zpos n) (Zpos n)) by lia.
    rewrite (Z.pow_add_r 2 1 (Zpos n)) by lia. rewrite Z.pow_1_r. ring.
  - pose proof (iter_shr_1_bounds n _ Hm) as H2.
    rewrite IH by lia. rewrite IH by lia.
    rewrite !Z.div_div by (try apply Z.pow_pos_nonneg; lia).
    f_equal. replace (Zpos n~0) with (Zpos n + Zpos n) by lia.
    rewrite (Z.pow_add_r 2 (Zpos n) (Zpos n)) by lia. reflexivity.
  - rewrite shr_1_div2 by lia. reflexivity.
Qed.

(** One shift of [binary_round_aux]: the exponent rises to the one the
    format asks for, if that is higher, and the mantissa is divided
    accordingly. *)
Lemma shr_fexp_div (prec emax m e : Z) (l : location) :
  0 <= m ->
  let '(mrs, e') := shr_fexp prec emax m e l in
  e' = Z.max e (fexp prec emax (Zdigits2 m + e)) /\
  shr_m mrs = m / 2 ^ (e' - e).
Proof.
  intros Hm. unfold shr_fexp, shr.
  assert (Hl : shr_m (shr_record_of_loc m l) = m)
    by (destruct l as [| []]; reflexivity).
  destruct (fexp prec emax (Zdigits2 m + e) - e) as [| p | p] eqn:Hn.
  - rewrite Hl. split; [lia |].
    replace (e - e) with 0 by lia. now rewrite Z.div_1_r.
  - rewrite iter_shr_1_div by lia. rewrite Hl. split; [lia |].
    f_equal. f_equal. lia.
  - rewrite Hl. split; [lia |].
    replace (e - e) with 0 by lia. now rewrite Z.div_1_r.
Qed.

(** [binary_round_aux] on a non-negative mantissa, in integer terms. *)
Lemma binary_round_aux_div (prec emax : Z) (s : bool) (m e : Z) (l : location) :
  0 <= m ->
  exists m1 e1 e2,
    e1 = Z.max e (fexp prec emax (Zdigits2 m + e)) /\
    e2 = Z.max e1 (fexp prec emax (Zdigits2 m1 + e1)) /\
    m / 2 ^ (e1 - e) <= m1 <= m / 2 ^ (e1 - e) + 1 /\
    binary_round_aux prec emax s m e l =
    match m1 / 2 ^ (e2 - e1) with
    | Z0 => S754_zero s
    | Zpos p => if e2 <=? emax - prec then S754_finite s p e2 else S754_infinity s
    | Zneg _ => S754_nan
    end.
Proof.
  intros Hm. unfold binary_round_aux.
  pose proof (shr_fexp_div prec emax m e l Hm) as H1.
  destruct (shr_fexp prec emax m e l) as [mrs1 e1].
  destruct H1 as [He1 Hm1].
  pose proof (round_nearest_even_bounds (shr_m mrs1) (loc_of_shr_record mrs1)) as Hr.
  set (m1 := round_nearest_even (shr_m mrs1) (loc_of_shr_record mrs1)) in *.
  assert (Hm1' : 0 <= m1).
  { rewrite Hm1 in Hr. pose proof (Z.div_pos m (2 ^ (e1 - e)) Hm) as Hd.
    assert (0 < 2 ^ (e1 - e)) by (apply Z.pow_pos_nonneg; lia). lia. }
  pose proof (shr_fexp_div prec emax m1 e1 loc_Exact Hm1') as H2.
  destruct (shr_fexp prec emax m1 e1 loc_Exact) as [mrs2 e2].
  destruct H2 as [He2 Hm2].
  exists m1, e1, e2. rewrite <- Hm1, <- Hm2. auto.
Qed.

End BinaryRounding.

(** ** Timestamps in milliseconds *)

Section Timestamps.

Lemma of_Z_1000 : PyFloat.of_Z 1000 = S754_finite false 8796093022208000 (-43).
Proof. reflexivity. Qed.

Lemma trunc_mag_nonneg (m : positive) (e : Z) : 0 <= PyFloat.trunc_mag m e.
Proof.
  unfold PyFloat.trunc_mag. destruct e.
  - apply Z.shiftl_nonneg. lia.
  - apply Z.shiftl_nonneg. lia.
  - apply Z.shiftr_nonneg. lia.
Qed.

Lemma timestamp_exponent (s : bool) (m : positive) (e : Z) :
  PyFloat.is_timestamp (S754_finite s m e) = true ->
  Zpos (digits2_pos m) <= 53 /\ Zpos (digits2_pos m) + e <= 38 /\ e <= -15.
Proof.
  intros H. cbn [PyFloat.is_timestamp] in H.
  apply andb_prop in H. destruct H as [Hb Hd]. apply Z.leb_le in Hd.
  unfold bounded, canonical_mantissa, fexp, emin, PyFloat.prec, PyFloat.emax in Hb.
  apply andb_prop in Hb. destruct Hb as [Hc _]. apply Z.eqb_eq in Hc. lia.
Qed.

Lemma Zdigits2_lt_pow2 (a b : Z) : 0 <= a -> 0 <= b -> a < 2 ^ b -> Zdigits2 a <= b.
Proof.
  intros Ha Hb Hlt. destruct (Z.eq_dec a 0) as [-> | Hne]; [simpl; lia |].
  rewrite Zdigits2_log2 by lia.
  apply Z.log2_lt_pow2 in Hlt; lia.
Qed.

Lemma Zdigits2_gt (a : Z) : 0 <= a -> a < 2 ^ Zdigits2 a.
Proof.
  intros Ha. destruct (Z.eq_dec a 0) as [-> | Hne]; [simpl; lia |].
  rewrite Zdigits2_log2 by lia.
  pose proof (Z.log2_spec a ltac:(lia)) as H. unfold Z.succ in H. lia.
Qed.

(** The integer [int] makes of a timestamp times 1000: the sign of the
    timestamp, and the whole milliseconds of the exact product or one
    more. *)
Lemma to_int_mul_1000_accuracy (s : bool) (m : positive) (e : Z) :
  PyFloat.is_timestamp (S754_finite s m e) = true ->
  exists n,
    PyFloat.to_int (PyFloat.mul (S754_finite s m e) (PyFloat.of_Z 1000))
      = Some (cond_Zopp s n) /\
    millis_floor m e <= n <= millis_floor m e + 1.
Proof.
  intros Hts. destruct (timestamp_exponent s m e Hts) as (H53 & H38 & He).
  rewrite of_Z_1000. unfold PyFloat.mul, SFmul. rewrite xorb_false_r.
  set (M := Zpos (m * 8796093022208000)).
  assert (HM : M = 1000 * Zpos m * 2 ^ 43) by (unfold M; lia).
  assert (HM0 : 0 < M) by (unfold M; lia).
  destruct (binary_round_aux_div PyFloat.prec PyFloat.emax s M (e + -43) loc_Exact
              ltac:(lia)) as (m1 & e1 & e2 & He1 & He2 & Hm1 & ->).
  set (a := M / 2 ^ (e1 - (e + -43))) in *.
  assert (HdM : Zdigits2 M <= Zpos (digits2_pos m) + 53).
  { apply Zdigits2_lt_pow2; try lia.
    pose proof (Zdigits2_gt (Zpos m) ltac:(lia)) as Hm. simpl Zdigits2 in Hm.
    rewrite Z.pow_add_r by lia.
    change (2 ^ 53) with (1024 * 2 ^ 43). rewrite HM. nia. }
  unfold fexp, emin, PyFloat.prec, PyFloat.emax in He1, He2.
  assert (Hsh : 0 <= e1 - (e + -43)) by lia.
  assert (He1' : e1 <= -5) by lia.
  assert (Ha0 : 0 <= a) by (apply Z.div_pos; [lia | apply Z.pow_pos_nonneg; lia]).
  assert (Ha : a < 2 ^ 53).
  { apply Z.div_lt_upper_bound; [apply Z.pow_pos_nonneg; lia |].
    rewrite <- Z.pow_add_r by lia.
    pose proof (Zdigits2_gt M ltac:(lia)) as HMlt.
    pose proof (Z.pow_le_mono_r 2 (Zdigits2 M) (e1 - (e + -43) + 53) ltac:(lia) ltac:(lia)).
    lia. }
  assert (Hd1 : Zdigits2 m1 <= 54).
  { apply Zdigits2_lt_pow2; lia. }
  assert (He2' : e1 <= e2 <= -4) by lia.
  (* the integer made of the result *)
  assert (Hn : (m1 / 2 ^ (e2 - e1)) / 2 ^ (- e2) = m1 / 2 ^ (- e1)).
  { rewrite Z.div_div by (try apply Z.pow_pos_nonneg; lia).
    rewrite <- Z.pow_add_r by lia. f_equal. f_equal. lia. }
  assert (Hj : a / 2 ^ (- e1) = millis_floor m e).
  { unfold a. rewrite Z.div_div by (try apply Z.pow_pos_nonneg; lia).
    rewrite <- Z.pow_add_r by lia.
    replace (e1 - (e + -43) + - e1) with (- e + 43) by lia.
    rewrite Z.pow_add_r by lia. rewrite HM.
    rewrite Z.div_mul_cancel_r by (try apply Z.pow_nonzero; lia).
    unfold millis_floor. destruct e as [| p | p]; [lia | lia | reflexivity]. }
  assert (Hq : 0 < 2 ^ (- e1)) by (apply Z.pow_pos_nonneg; lia).
  assert (Hq1 : 1 <= 2 ^ (- e1)) by lia.
  assert (Hbounds : a / 2 ^ (- e1) <= m1 / 2 ^ (- e1) <= a / 2 ^ (- e1) + 1).
  { split.
    - apply Z.div_le_mono; lia.
    - rewrite <- Z.div_add by lia. apply Z.div_le_mono; lia. }
  exists (m1 / 2 ^ (- e1)). rewrite <- Hj. split; [| exact Hbounds].
  rewrite <- Hn.
  assert (Hm2 : 0 <= m1 / 2 ^ (e2 - e1))
    by (apply Z.div_pos; [lia | apply Z.pow_pos_nonneg; lia]).
  destruct (m1 / 2 ^ (e2 - e1)) as [| p | p] eqn:Hp; [| | lia].
  - cbn [PyFloat.to_int]. rewrite Z.div_0_l by lia. now destruct s.
  - destruct (Z.leb_spec e2 (PyFloat.emax - PyFloat.prec)) as [_ | Hgt];
      [| unfold PyFloat.emax, PyFloat.prec in Hgt; lia].
    cbn [PyFloat.to_int]. unfold PyFloat.trunc_mag.
    destruct e2 as [| q | q]; try lia.
    rewrite Z.shiftr_div_pow2 by lia. reflexivity.
Qed.

Lemma millis_floor_nonneg (m : positive) (e : Z) : 0 <= millis_floor m e.
Proof.
  unfold millis_floor. destruct e as [| p | p].
  - lia.
  - pose proof (Z.pow_pos_nonneg 2 (Zpos p)). nia.
  - apply Z.div_pos; [lia | apply Z.pow_pos_nonneg; lia].
Qed.

(** [int] never raises in [epoch_millis]. *)
Lemma epoch_millis_defined (now : timestamp) :
  PyFloat.to_int (PyFloat.mul now (PyFloat.of_Z 1000)) = Some (epoch_millis now).
Proof.
  unfold epoch_millis. destruct now as [t Ht]. cbn [ts_seconds].
  destruct t as [s | s | | s m e].
  - rewrite of_Z_1000. reflexivity.
  - discriminate Ht.
  - discriminate Ht.
  - destruct (to_int_mul_1000_accuracy s m e Ht) as (n & -> & _). reflexivity.
Qed.

(** The millisecond count is the whole milliseconds of the exact product
    of the clock reading and 1000, or one more, with the sign of the
    reading. *)
Lemma epoch_millis_accuracy (now : timestamp) (s : bool) (m : positive) (e : Z) :
  ts_seconds now = S754_finite s m e ->
  exists n,
    epoch_millis now = cond_Zopp s n /\
    millis_floor m e <= n <= millis_floor m e + 1.
Proof.
  intros Hnow. pose proof (epoch_millis_defined now) as Hdef.
  pose proof (ts_in_range now) as Ht. rewrite Hnow in Hdef, Ht.
  destruct (to_int_mul_1000_accuracy s m e Ht) as (n & Hn & Hb).
  exists n. split; [congruence | exact Hb].
Qed.

Lemma epoch_millis_zero (now : timestamp) (s : bool) :
  ts_seconds now = S754_zero s -> epoch_millis now = 0.
Proof.
  intros Hnow. pose proof (epoch_millis_defined now) as Hdef.
  rewrite Hnow, of_Z_1000 in Hdef. cbn in Hdef. congruence.
Qed.

(** From the epoch on, the millisecond count is within one millisecond of
    the exact one, and not negative. *)
Lemma epoch_millis_from_epoch (now : timestamp) :
  PyFloat.ltb now (S754_zero false) = false ->
  whole_millis now <= epoch_millis now <= whole_millis now + 1.
Proof.
  intros Hlt. destruct (ts_seconds now) as [s | s | | s m e] eqn:Hnow.
  - rewrite (epoch_millis_zero now s Hnow). simpl. lia.
  - pose proof (ts_in_range now) as Ht. rewrite Hnow in Ht. discriminate Ht.
  - pose proof (ts_in_range now) as Ht. rewrite Hnow in Ht. discriminate Ht.
  - assert (s = false) as -> by (destruct s; [discriminate Hlt | reflexivity]).
    destruct (epoch_millis_accuracy now false m e Hnow) as (n & -> & Hb).
    exact Hb.
Qed.

Lemma whole_millis_nonneg (t : spec_float) : 0 <= whole_millis t.
Proof. destruct t; simpl; try lia. apply millis_floor_nonneg. Qed.

Lemma epoch_millis_nonneg (now : timestamp) :
  PyFloat.ltb now (S754_zero false) = false -> 0 <= epoch_millis now.
Proof.
  intros Hlt. pose proof (epoch_millis_from_epoch now Hlt).
  pose proof (whole_millis_nonneg now). lia.
Qed.

End Timestamps.

(** ** Runs of the entry point *)

Section Runs.

Context {Exc Reader Source : Type}.
Variable env : Collaborators Exc Reader Source.

Lemma printed_app (tr1 tr2 : trace Reader Source) :
  printed (tr1 ++ tr2) = printed tr1 ++ printed tr2.
Proof. apply flat_map_app. Qed.

Lemma printed_cons (ev : event Reader Source) (tr : trace Reader Source) :
  printed (ev :: tr) = match ev with Print line => [line] | _ => [] end ++ printed tr.
Proof. reflexivity. Qed.

Lemma launches_app (tr1 tr2 : trace Reader Source) :
  launches (tr1 ++ tr2) = launches tr1 ++ launches tr2.
Proof. apply flat_map_app. Qed.

Lemma launches_cons (ev : event Reader Source) (tr : trace Reader Source) :
  launches (ev :: tr) = match ev with CallLaunch s a => [(s, a)] | _ => [] end ++ launches tr.
Proof. reflexivity. Qed.

Lemma constructions_app (tr1 tr2 : trace Reader Source) :
  constructions (tr1 ++ tr2) = constructions tr1 ++ constructions tr2.
Proof. apply flat_map_app. Qed.

Lemma constructions_cons (ev : event Reader Source) (tr : trace Reader Source) :
  constructions (ev :: tr)
  = match ev with CallSourceS3 _ _ c _ => [c] | _ => [] end ++ constructions tr.
Proof. reflexivity. Qed.

Lemma printed_construction (c : option string) :
  printed (construction_events env c) = [].
Proof. unfold construction_events. destruct (SourceS3StreamReader env); reflexivity. Qed.

Lemma launches_construction (c : option string) :
  launches (construction_events env c) = [].
Proof. unfold construction_events. destruct (SourceS3StreamReader env); reflexivity. Qed.

Lemma constructions_construction (c : option string) :
  (List.length (constructions (construction_events env c)) <= 1)%nat.
Proof. unfold construction_events. destruct (SourceS3StreamReader env); simpl; lia. Qed.

Lemma printed_handler (e : Exc) : printed (handler_events env e) = [error_line env e].
Proof. reflexivity. Qed.

Lemma launches_handler (e : Exc) : launches (handler_events env e) = [].
Proof. reflexivity. Qed.

Lemma constructions_handler (e : Exc) : constructions (handler_events env e) = [].
Proof. reflexivity. Qed.

(** Every run of [get_source], spelled out. *)
Lemma get_source_run (args : list string) (tr : trace Reader Source) :
  get_source env args tr =
  match extract_catalog env args with
  | inl e => (inl e, tr ++ [CallExtractCatalog args])
  | inr c =>
      let tr' := tr ++ CallExtractCatalog args :: construction_events env c in
      match construction env c with
      | inr s => (inr (Some s), tr')
      | inl e =>
          if isinstance_Exception env e
          then (inr None, tr' ++ handler_events env e)
          else (inl e, tr')
      end
  end.
Proof.
  unfold get_source, bind, call, print, call, try_except_Exception, ret, py_int,
    construction, construction_events, handler_events, error_line, error_record.
  rewrite epoch_millis_defined.
  destruct (extract_catalog env args) as [e | c]; [reflexivity |].
  destruct (SourceS3StreamReader env) as [e | r].
  - destruct (isinstance_Exception env e);
      repeat (rewrite <- app_assoc; simpl); reflexivity.
  - destruct (SourceS3 env r Config c Cursor) as [e | s].
    + destruct (isinstance_Exception env e);
        repeat (rewrite <- app_assoc; simpl); reflexivity.
    + repeat (rewrite <- app_assoc; simpl); reflexivity.
Qed.

End Runs.

(** What a trace shows, computed by rewriting. *)
Create Rewrite HintDb observations.
#[export] Hint Rewrite
  @printed_app @printed_cons @printed_construction @printed_handler
  @launches_app @launches_cons @launches_construction @launches_handler
  @constructions_app @constructions_cons @constructions_handler
  : observations.

Ltac observe := autorewrite with observations; cbn [app].

Section JsonText.

Lemma string_app_assoc (a b c : string) : ((a ++ b) ++ c = a ++ (b ++ c))%string.
Proof. induction a as [| x a IH]; simpl; [reflexivity | now rewrite IH]. Qed.

Lemma occurs_app (c : ascii) (a b : string) :
  occurs c (a ++ b)%string = occurs c a || occurs c b.
Proof.
  induction a as [| x a IH]; simpl; [reflexivity |].
  rewrite IH. apply orb_assoc.
Qed.

Lemma escape_char_one_line (c : ascii) : occurs "010" (Json.escape_char c) = false.
Proof. destruct c as [[] [] [] [] [] [] [] []]; reflexivity. Qed.

Lemma escape_one_line (s : string) : occurs "010" (Json.escape s) = false.
Proof.
  induction s as [| c s IH]; simpl; [reflexivity |].
  now rewrite occurs_app, escape_char_one_line, IH.
Qed.

Lemma quoted_one_line (s : string) : occurs "010" (Json.quoted s) = false.
Proof.
  unfold Json.quoted. now rewrite !occurs_app, escape_one_line.
Qed.

Lemma uint_one_line (u : Decimal.uint) :
  occurs "010" (NilEmpty.string_of_uint u) = false.
Proof. induction u; simpl; auto. Qed.

Lemma int_text_one_line (n : Z) : occurs "010" (Json.int_text n) = false.
Proof.
  unfold Json.int_text, NilZero.string_of_int, NilZero.string_of_uint.
  destruct (Z.to_int n) as [u | u]; destruct u; simpl; auto using uint_one_line.
Qed.

(** The serializer writes the record the [except] branch builds as the
    text the specification gives. *)
Lemma json_error_record (now : timestamp) (tb : string) :
  Models.json (error_record now tb) = spec_error_text (epoch_millis now) tb.
Proof.
  unfold Models.json, Models.trace_json, Models.error_json, error_record,
    spec_error_text, Json.object, Json.member; simpl.
  repeat (rewrite !string_app_assoc; simpl).
  reflexivity.
Qed.

(** A record takes one line: the newlines of the traceback are escaped. *)
Lemma spec_error_text_one_line (n : Z) (st : string) :
  occurs "010" (spec_error_text n st) = false.
Proof.
  unfold spec_error_text, Json.quoted.
  repeat (rewrite occurs_app; simpl).
  now rewrite int_text_one_line, escape_one_line.
Qed.

Lemma escape_nonempty (s : string) : s <> EmptyString -> Json.escape s <> EmptyString.
Proof.
  destruct s as [| c s]; [congruence |]. intros _. simpl.
  destruct c as [[] [] [] [] [] [] [] []]; discriminate.
Qed.

End JsonText.

Section GetSource.

Context {Exc Reader Source : Type}.
Variable env : Collaborators Exc Reader Source.

Lemma get_source_outcome (args : list string) :
  outcome env args (fst (get_source env args [])) (snd (get_source env args [])).
Proof.
  rewrite get_source_run. simpl.
  destruct (extract_catalog env args) as [e | c] eqn:Hx.
  - now apply ExtractionRaised.
  - destruct (construction env c) as [e | s] eqn:Hc.
    + destruct (isinstance_Exception env e) eqn:He.
      * now apply Reported.
      * now apply Escaped.
    + now apply Constructed.
Qed.

Lemma get_source_inv (args : list string) r tr :
  get_source env args [] = (r, tr) -> outcome env args r tr.
Proof.
  intros H. pose proof (get_source_outcome args) as Ho.
  now rewrite H in Ho.
Qed.

Lemma stdout_one_line (tr : trace Reader Source) (line : string) :
  printed tr = [line] -> stdout tr = (line ++ newline)%string.
Proof. unfold stdout. now intros ->. Qed.

(** What a run prints: nothing, unless it returns [None]; then one line,
    the error record of an [Exception] that construction raised. *)
Lemma outcome_printed (args : list string) r tr :
  outcome env args r tr ->
  (r <> inr None /\ printed tr = []) \/
  (r = inr None /\
   exists c e, extract_catalog env args = inr c /\ construction env c = inl e /\
               isinstance_Exception env e = true /\ printed tr = [error_line env e]).
Proof.
  intros Ho. inversion Ho; subst.
  - left. split; [discriminate | reflexivity].
  - left. split; [discriminate | now observe].
  - right. split; [reflexivity |]. exists c, e. repeat split; try assumption.
    now observe.
  - left. split; [discriminate | now observe].
Qed.

Lemma outcome_launches (args : list string) r tr :
  outcome env args r tr -> launches tr = [].
Proof. intros Ho. inversion Ho; subst; now observe. Qed.

Lemma outcome_constructions (args : list string) r tr :
  outcome env args r tr -> (List.length (constructions tr) <= 1)%nat.
Proof.
  intros Ho. pose proof (constructions_construction env) as Hc.
  inversion Ho; subst; observe; rewrite ?app_nil_r; simpl; auto.
Qed.

(** The result and the printed lines of a run, as functions of what the
    collaborators do. *)
Lemma get_source_result (args : list string) :
  fst (get_source env args []) =
  match extract_catalog env args with
  | inl e => inl e
  | inr c =>
      match construction env c with
      | inr s => inr (Some s)
      | inl e => if isinstance_Exception env e then inr None else inl e
      end
  end.
Proof.
  rewrite get_source_run.
  destruct (extract_catalog env args) as [e | c]; [reflexivity |].
  cbv zeta. destruct (construction env c) as [e | s]; [| reflexivity].
  now destruct (isinstance_Exception env e).
Qed.

Lemma get_source_printed (args : list string) :
  printed (snd (get_source env args [])) =
  match extract_catalog env args with
  | inl e => []
  | inr c =>
      match construction env c with
      | inr s => []
      | inl e => if isinstance_Exception env e then [error_line env e] else []
      end
  end.
Proof.
  rewrite get_source_run.
  destruct (extract_catalog env args) as [e | c]; [reflexivity |].
  cbv zeta. rewrite app_nil_l.
  destruct (construction env c) as [e | s];
    [destruct (isinstance_Exception env e) |];
    cbn [snd]; now observe.
Qed.

(** The run in which construction raises an [Exception]. *)
Lemma get_source_reported (args : list string) (c : option string) (e : Exc) :
  extract_catalog env args = inr c ->
  construction env c = inl e ->
  isinstance_Exception env e = true ->
  exists tr,
    get_source env args [] = (inr None, tr) /\ printed tr = [error_line env e].
Proof.
  intros Hx Hc He.
  exists (CallExtractCatalog args :: construction_events env c ++ handler_events env e).
  split.
  - rewrite get_source_run, Hx. cbv zeta. now rewrite Hc, He.
  - now observe.
Qed.

(** The run in which construction raises something else. *)
Lemma get_source_escaped (args : list string) (c : option string) (e : Exc) :
  extract_catalog env args = inr c ->
  construction env c = inl e ->
  isinstance_Exception env e = false ->
  get_source env args [] = (inl e, CallExtractCatalog args :: construction_events env c).
Proof.
  intros Hx Hc He. rewrite get_source_run, Hx. cbv zeta. now rewrite Hc, He.
Qed.

End GetSource.

(** ** The failure path of [get_source] *)

Section FailurePath.

Context {Exc Reader Source : Type}.
Variable env : Collaborators Exc Reader Source.

(** C1 (as amended).  For every failure raised during connector
    construction that is an instance of [Exception], [get_source] catches
    it: it returns the absent value instead of raising, and standard
    output holds exactly one record, serialized, whose [emitted_at] is the
    clock reading in epoch milliseconds and whose [stack_trace] is the
    formatted traceback of the failure. *)
Theorem get_source_catches_Exception (args : list string) (c : option string) (e : Exc) :
  extract_catalog env args = inr c ->
  construction env c = inl e ->
  isinstance_Exception env e = true ->
  exists tr n,
    get_source env args [] = (inr None, tr) /\
    PyFloat.to_int (PyFloat.mul (now_timestamp env) (PyFloat.of_Z 1000)) = Some n /\
    printed tr =
      [Models.json
         {| Models.type := Models.TRACE;
            Models.trace :=
              {| Models.trace_type := Models.ERROR;
                 Models.emitted_at := n;
                 Models.error :=
                   {| Models.message := error_message;
                      Models.stack_trace := format_exc env e |} |} |}] /\
    stdout tr = (error_line env e ++ newline)%string.
Proof.
  intros Hx Hc He.
  destruct (get_source_reported env args c e Hx Hc He) as (tr & Hrun & Hp).
  exists tr, (epoch_millis (now_timestamp env)).
  split; [exact Hrun | split; [apply epoch_millis_defined | split]].
  - exact Hp.
  - now apply stdout_one_line.
Qed.

(** C2.  Every line [get_source] prints is the error record in the shape
    the specification gives, with the fixed message verbatim: it is the
    serialization of a record of type [TRACE] whose trace has type
    [ERROR], an integer [emitted_at] and an error made of the fixed
    message and of a stack trace. *)
Theorem error_record_shape (args : list string) r tr (line : string) :
  get_source env args [] = (r, tr) ->
  In line (printed tr) ->
  exists (n : Z) (st : string),
    line = spec_error_text n st /\
    line = Models.json
             {| Models.type := Models.TRACE;
                Models.trace :=
                  {| Models.trace_type := Models.ERROR;
                     Models.emitted_at := n;
                     Models.error :=
                       {| Models.message :=
                            "Error starting the sync. This could be due to an invalid configuration or catalog. Please contact Support for assistance.";
                          Models.stack_trace := st |} |} |}.
Proof.
  intros Hrun Hin. apply get_source_inv, outcome_printed in Hrun.
  destruct Hrun as [[_ Hp] | [_ (c & e & _ & _ & _ & Hp)]]; rewrite Hp in Hin.
  - destruct Hin.
  - destruct Hin as [<- | []].
    exists (epoch_millis (now_timestamp env)), (format_exc env e).
    split; [apply json_error_record | reflexivity].
Qed.

(** C3 (as amended).  For any argument list for which catalog-path
    extraction returns, with a path or without one, and connector
    construction raises an [Exception], [get_source] returns the absent
    value and exactly one well-formed error record is written to standard
    output: one line, in the specified shape, with the fixed message text
    and, as the formatted traceback is not empty, a non-empty stack-trace
    string.  A failure of the extraction itself is not caught: it leaves
    [get_source] as an exception, and nothing is written. *)
Theorem get_source_reports_construction_failure (args : list string) :
  (forall c e,
      extract_catalog env args = inr c ->
      construction env c = inl e ->
      isinstance_Exception env e = true ->
      format_exc env e <> EmptyString ->
      exists tr line,
        get_source env args [] = (inr None, tr) /\
        printed tr = [line] /\
        stdout tr = (line ++ newline)%string /\
        occurs "010" line = false /\
        line = spec_error_text (epoch_millis (now_timestamp env)) (format_exc env e) /\
        Json.escape (format_exc env e) <> EmptyString) /\
  (forall e,
      extract_catalog env args = inl e ->
      get_source env args [] = (inl e, [CallExtractCatalog args])).
Proof.
  split.
  - intros c e Hx Hc He Hst.
    destruct (get_source_reported env args c e Hx Hc He) as (tr & Hrun & Hp).
    exists tr, (error_line env e).
    unfold error_line in *. rewrite json_error_record in *.
    repeat split; try assumption.
    + now apply stdout_one_line.
    + apply spec_error_text_one_line.
    + now apply escape_nonempty.
  - intros e Hx. rewrite get_source_run, Hx. reflexivity.
Qed.

End FailurePath.

(** ** The success path, the empty argument list, the clock *)

Section OtherPaths.

Context {Exc Reader Source : Type}.
Variable env : Collaborators Exc Reader Source.

(** C5.  For any argument list that allows successful construction,
    [get_source] returns a handle, not the absent value, and writes
    nothing to standard output. *)
Theorem get_source_success_is_silent (args : list string) (c : option string) (s : Source) :
  extract_catalog env args = inr c ->
  construction env c = inr s ->
  exists tr,
    get_source env args [] = (inr (Some s), tr) /\
    printed tr = [] /\
    stdout tr = EmptyString.
Proof.
  intros Hx Hc.
  exists (CallExtractCatalog args :: construction_events env c).
  assert (Hp : printed (CallExtractCatalog args :: construction_events env c) = []).
  { now observe. }
  repeat split.
  - rewrite get_source_run, Hx. cbv zeta. now rewrite Hc.
  - exact Hp.
  - unfold stdout. now rewrite Hp.
Qed.

(** C7.  In every error record [get_source] emits, [emitted_at] is the
    integer truncation of the clock reading times 1000, which [int]
    computes without raising; for a clock reading that is not before the
    epoch it is a non-negative integer, the whole milliseconds of the exact
    wall-clock time or one more. *)
Theorem emitted_at_is_epoch_millis (args : list string) r tr (line : string) :
  get_source env args [] = (r, tr) ->
  In line (printed tr) ->
  PyFloat.ltb (now_timestamp env) (S754_zero false) = false ->
  exists (n : Z) (st : string),
    line = Models.json
             {| Models.type := Models.TRACE;
                Models.trace :=
                  {| Models.trace_type := Models.ERROR;
                     Models.emitted_at := n;
                     Models.error :=
                       {| Models.message := error_message;
                          Models.stack_trace := st |} |} |} /\
    PyFloat.to_int (PyFloat.mul (now_timestamp env) (PyFloat.of_Z 1000)) = Some n /\
    0 <= n /\
    whole_millis (now_timestamp env) <= n <= whole_millis (now_timestamp env) + 1.
Proof.
  intros Hrun Hin Hclock. apply get_source_inv, outcome_printed in Hrun.
  destruct Hrun as [[_ Hp] | [_ (c & e & _ & _ & _ & Hp)]]; rewrite Hp in Hin.
  - destruct Hin.
  - destruct Hin as [<- | []].
    exists (epoch_millis (now_timestamp env)), (format_exc env e).
    split; [reflexivity | split; [| split]].
    + apply epoch_millis_defined.
    + now apply epoch_millis_nonneg.
    + now apply epoch_millis_from_epoch.
Qed.

(** C8 (as amended).  For the empty argument list, when catalog-path
    extraction yields no path, [get_source] validates nothing and does not
    stop short: construction is attempted right after the extraction, the
    connector is built with the absent path, and a failure of the
    construction that is an [Exception] follows the error-emission
    contract, the absent value returned and one error record written. *)
Theorem get_source_empty_args :
  extract_catalog env [] = inr None ->
  (exists r rest,
      get_source env [] [] = (r, CallExtractCatalog [] :: CallStreamReader :: rest)) /\
  (forall reader,
      SourceS3StreamReader env = inr reader ->
      In (CallSourceS3 reader Config None Cursor) (snd (get_source env [] []))) /\
  (forall e,
      construction env None = inl e ->
      isinstance_Exception env e = true ->
      reports_failure env [] e).
Proof.
  intros Hx. split; [| split].
  - rewrite get_source_run, Hx. cbv zeta. unfold construction_events.
    destruct (construction env None) as [e | s];
      [destruct (isinstance_Exception env e) |];
      destruct (SourceS3StreamReader env); simpl; eauto.
  - intros reader Hr. rewrite get_source_run, Hx. cbv zeta.
    unfold construction_events. rewrite Hr.
    destruct (construction env None) as [e | s];
      [destruct (isinstance_Exception env e) |]; simpl; auto.
  - intros e Hc He. now apply get_source_reported with (c := None).
Qed.

End OtherPaths.

(** ** Determinism *)

Section Determinism.

Context {Exc Reader Source : Type}.
Variables env1 env2 : Collaborators Exc Reader Source.

(** C10.  [get_source] is deterministic relative to its environment: in
    two runs on equal argument lists in which the clock gives the same
    timestamp and the catalog-path extraction and the connector
    construction behave alike (the same value returned, or failures of the
    same traceback text that [except Exception] treats alike), the results
    are alike in the same sense and standard output holds the same text. *)
Theorem get_source_deterministic (args : list string) :
  ts_seconds (now_timestamp env1) = ts_seconds (now_timestamp env2) ->
  alike env1 env2 (extract_catalog env1 args) (extract_catalog env2 args) ->
  (forall c, alike env1 env2 (construction env1 c) (construction env2 c)) ->
  alike env1 env2 (fst (get_source env1 args [])) (fst (get_source env2 args [])) /\
  stdout (snd (get_source env1 args [])) = stdout (snd (get_source env2 args [])).
Proof.
  intros Hclock Hx Hc.
  assert (Hms : epoch_millis (now_timestamp env1) = epoch_millis (now_timestamp env2))
    by (unfold epoch_millis; now rewrite Hclock).
  split.
  - rewrite !get_source_result.
    destruct (extract_catalog env1 args) as [x1 | c1],
             (extract_catalog env2 args) as [x2 | c2];
      simpl in Hx; try contradiction; [exact Hx |]. subst c2.
    specialize (Hc c1).
    destruct (construction env1 c1) as [e1 | s1],
             (construction env2 c1) as [e2 | s2];
      simpl in Hc; try contradiction; [| now subst].
    destruct Hc as [Htb Hinst]. rewrite <- Hinst.
    destruct (isinstance_Exception env1 e1) eqn:He; simpl; auto.
    now rewrite He.
  - unfold stdout. rewrite !get_source_printed.
    destruct (extract_catalog env1 args) as [x1 | c1],
             (extract_catalog env2 args) as [x2 | c2];
      simpl in Hx; try contradiction; [reflexivity |]. subst c2.
    specialize (Hc c1).
    destruct (construction env1 c1) as [e1 | s1],
             (construction env2 c1) as [e2 | s2];
      simpl in Hc; try contradiction; [| reflexivity].
    destruct Hc as [Htb Hinst]. rewrite <- Hinst.
    destruct (isinstance_Exception env1 e1); [| reflexivity].
    unfold error_line, error_record. now rewrite Htb, Hms.
Qed.

End Determinism.

(** ** The driver *)

Section Driver.

Context {Exc Reader Source : Type}.
Variable env : Collaborators Exc Reader Source.

(** The driver runs [get_source] on the arguments after the program name
    and then at most calls the launcher. *)
Lemma main_trace (argv : list string) :
  exists suffix,
    snd (main env argv []) = snd (get_source env (tl argv) []) ++ suffix /\
    (suffix = [] \/ exists s, suffix = [CallLaunch s (tl argv)]).
Proof.
  unfold main, bind.
  destruct (get_source env (tl argv) []) as [[e | [s |]] tr]; simpl.
  - exists []. rewrite app_nil_r. auto.
  - destruct (truthy env s); simpl.
    + exists [CallLaunch s (tl argv)]. eauto.
    + exists []. rewrite app_nil_r. auto.
  - exists []. rewrite app_nil_r. auto.
Qed.

(** C4.  Whenever [get_source] returns a handle (a connector object,
    which is truthy), the driver invokes the launcher exactly once, as its
    last step, on that handle and on the process arguments without the
    program name, unmodified. *)
Theorem main_launches_once (argv : list string) (s : Source) tr :
  get_source env (tl argv) [] = (inr (Some s), tr) ->
  truthy env s = true ->
  main env argv [] = (launch env s (tl argv), tr ++ [CallLaunch s (tl argv)]) /\
  launches (snd (main env argv [])) = [(s, tl argv)].
Proof.
  intros Hrun Hs.
  assert (Hmain : main env argv []
                  = (launch env s (tl argv), tr ++ [CallLaunch s (tl argv)])).
  { unfold main, bind. rewrite Hrun, Hs. reflexivity. }
  split; [exact Hmain |].
  rewrite Hmain. cbn [snd]. rewrite launches_app.
  apply get_source_inv, outcome_launches in Hrun. now rewrite Hrun.
Qed.

(** C6.  When [get_source] returns the absent value, the driver returns
    without calling the launcher: the run ends where [get_source] left it,
    with the error message already on standard output and no launch. *)
Theorem main_without_source (argv : list string) tr :
  get_source env (tl argv) [] = (inr None, tr) ->
  main env argv [] = (inr tt, tr) /\
  launches (snd (main env argv [])) = [] /\
  exists e, printed (snd (main env argv [])) = [error_line env e].
Proof.
  intros Hrun.
  assert (Hmain : main env argv [] = (inr tt, tr)).
  { unfold main, bind. rewrite Hrun. reflexivity. }
  rewrite Hmain. cbn [snd]. apply get_source_inv in Hrun.
  split; [reflexivity | split].
  - now apply outcome_launches in Hrun.
  - apply outcome_printed in Hrun.
    destruct Hrun as [[Hr _] | [_ (c & e & _ & _ & _ & Hp)]]; [congruence | eauto].
Qed.

(** C9.  In every process invocation, whatever the arguments and the
    collaborators do, the connector constructor is called at most once
    and at most one error message is printed, in [get_source] and in the
    driver as a whole. *)
Theorem at_most_one_construction_and_message (argv : list string) :
  (List.length (constructions (snd (get_source env (tl argv) []))) <= 1)%nat /\
  (List.length (printed (snd (get_source env (tl argv) []))) <= 1)%nat /\
  (List.length (constructions (snd (main env argv []))) <= 1)%nat /\
  (List.length (printed (snd (main env argv []))) <= 1)%nat.
Proof.
  pose proof (get_source_outcome env (tl argv)) as Ho.
  pose proof (outcome_constructions env _ _ _ Ho) as Hc.
  assert (Hp : (List.length (printed (snd (get_source env (tl argv) []))) <= 1)%nat).
  { apply outcome_printed in Ho.
    destruct Ho as [[_ ->] | [_ (c & e & _ & _ & _ & ->)]]; simpl; lia. }
  destruct (main_trace argv) as (suffix & -> & Hs).
  rewrite constructions_app, printed_app, !length_app.
  destruct Hs as [-> | [s ->]]; simpl; lia.
Qed.

End Driver.

(** ** The theorems at work on the sample runs *)

Example epoch_millis_nov_2023 : epoch_millis Sample.nov_2023 = 1700000000123.
Proof. reflexivity. Qed.

(** The float product can round up to the next integer: the result is then
    one more than the whole milliseconds of the exact product. *)
Example epoch_millis_rounds_up :
  whole_millis Sample.rounds_up = 1700000000101 /\
  epoch_millis Sample.rounds_up = 1700000000102.
Proof. split; reflexivity. Qed.

(** A clock set before the epoch reads a negative number of seconds, and
    the count is negative. *)
Example epoch_millis_before_epoch : epoch_millis Sample.before_epoch = -1000.
Proof. reflexivity. Qed.

Lemma get_source_catches_Exception_witness :
  extract_catalog Sample.invalid_config Sample.read_args = inr (Some "catalog.json") /\
  construction Sample.invalid_config (Some "catalog.json") = inl Sample.ValidationError /\
  isinstance_Exception Sample.invalid_config Sample.ValidationError = true /\
  exists tr,
    get_source Sample.invalid_config Sample.read_args [] = (inr None, tr) /\
    List.length (printed tr) = 1%nat.
Proof.
  split; [reflexivity | split; [reflexivity | split; [reflexivity |]]].
  destruct (get_source_catches_Exception Sample.invalid_config Sample.read_args
              (Some "catalog.json") Sample.ValidationError)
    as (tr & n & Hrun & _ & Hp & _); try reflexivity.
  exists tr. split; [exact Hrun | now rewrite Hp].
Defined.

(** C1, as stated, fails: a constructor that ends the process with
    [sys.exit] raises [SystemExit], which [except Exception] does not
    catch; [get_source] raises it in turn and prints nothing. *)
Lemma system_exit_escapes_get_source :
  construction Sample.exiting_constructor (Some "catalog.json") = inl Sample.SystemExit /\
  get_source Sample.exiting_constructor Sample.read_args []
    = (inl Sample.SystemExit,
       [CallExtractCatalog Sample.read_args; CallStreamReader;
        CallSourceS3 Sample.StreamReader Config (Some "catalog.json") Cursor]) /\
  propagates Sample.exiting_constructor Sample.read_args Sample.SystemExit /\
  ~ reports_failure Sample.exiting_constructor Sample.read_args Sample.SystemExit.
Proof.
  split; [reflexivity | split; [reflexivity | split]].
  - eexists. split; reflexivity.
  - intros (tr & Hrun & _). discriminate Hrun.
Qed.

Lemma error_record_shape_witness :
  get_source Sample.invalid_config Sample.read_args []
    = (inr None, snd (get_source Sample.invalid_config Sample.read_args [])) /\
  In (error_line Sample.invalid_config Sample.ValidationError)
     (printed (snd (get_source Sample.invalid_config Sample.read_args []))) /\
  exists (n : Z) (st : string),
    error_line Sample.invalid_config Sample.ValidationError = spec_error_text n st.
Proof.
  split; [reflexivity | split; [left; reflexivity |]].
  destruct (error_record_shape Sample.invalid_config Sample.read_args (inr None)
              (snd (get_source Sample.invalid_config Sample.read_args []))
              (error_line Sample.invalid_config Sample.ValidationError))
    as (n & st & Htext & _).
  - reflexivity.
  - left; reflexivity.
  - exists n, st. exact Htext.
Defined.

Lemma get_source_reports_construction_failure_witness :
  extract_catalog Sample.invalid_config [] = inr None /\
  construction Sample.invalid_config None = inl Sample.ValidationError /\
  isinstance_Exception Sample.invalid_config Sample.ValidationError = true /\
  format_exc Sample.invalid_config Sample.ValidationError <> EmptyString /\
  exists tr line,
    get_source Sample.invalid_config [] [] = (inr None, tr) /\
    printed tr = [line] /\
    occurs "010" line = false.
Proof.
  split; [reflexivity | split; [reflexivity | split; [reflexivity | split; [discriminate |]]]].
  destruct (proj1 (get_source_reports_construction_failure Sample.invalid_config [])
              None Sample.ValidationError)
    as (tr & line & Hrun & Hp & _ & Hline & _).
  - reflexivity.
  - reflexivity.
  - reflexivity.
  - discriminate.
  - exists tr, line. auto.
Defined.

(** C3, as stated, fails: the extraction is called before the [try], so
    its failure, here a [ValueError], is not caught; [get_source] raises it
    in turn, returns nothing and prints nothing. *)
Lemma extraction_failure_escapes_get_source :
  extract_catalog Sample.failing_extractor Sample.read_args = inl Sample.ValueError /\
  isinstance_Exception Sample.failing_extractor Sample.ValueError = true /\
  get_source Sample.failing_extractor Sample.read_args []
    = (inl Sample.ValueError, [CallExtractCatalog Sample.read_args]) /\
  ~ (exists tr line,
        get_source Sample.failing_extractor Sample.read_args [] = (inr None, tr) /\
        printed tr = [line]).
Proof.
  split; [reflexivity | split; [reflexivity | split; [reflexivity |]]].
  intros (tr & line & Hrun & _). discriminate Hrun.
Qed.

(** So does the exit of an argument parser that rejects the arguments. *)
Example rejected_arguments_end_the_process :
  main Sample.rejecting_parser Sample.argv []
  = (inl Sample.SystemExit, [CallExtractCatalog Sample.read_args]).
Proof. reflexivity. Qed.

(** Nor does an unresolved catalog path make [get_source] fail by itself:
    with no [--catalog] among the arguments and a constructor that accepts
    the absent path, a connector is returned and nothing is printed. *)
Example no_catalog_path_can_succeed :
  get_source Sample.healthy ["check"; "--config"; "secrets/config.json"] []
  = (inr (Some (Sample.Connector None)),
     [CallExtractCatalog ["check"; "--config"; "secrets/config.json"];
      CallStreamReader; CallSourceS3 Sample.StreamReader Config None Cursor]).
Proof. reflexivity. Qed.

Lemma main_launches_once_witness :
  get_source Sample.healthy (tl Sample.argv) []
    = (inr (Some (Sample.Connector (Some "catalog.json"))),
       [CallExtractCatalog Sample.read_args; CallStreamReader;
        CallSourceS3 Sample.StreamReader Config (Some "catalog.json") Cursor]) /\
  truthy Sample.healthy (Sample.Connector (Some "catalog.json")) = true /\
  launches (snd (main Sample.healthy Sample.argv []))
    = [(Sample.Connector (Some "catalog.json"), Sample.read_args)].
Proof.
  split; [reflexivity | split; [reflexivity |]].
  apply (main_launches_once Sample.healthy Sample.argv
           (Sample.Connector (Some "catalog.json"))
           [CallExtractCatalog Sample.read_args; CallStreamReader;
            CallSourceS3 Sample.StreamReader Config (Some "catalog.json") Cursor]);
    reflexivity.
Defined.

Lemma get_source_success_is_silent_witness :
  extract_catalog Sample.healthy Sample.read_args = inr (Some "catalog.json") /\
  construction Sample.healthy (Some "catalog.json")
    = inr (Sample.Connector (Some "catalog.json")) /\
  exists tr,
    get_source Sample.healthy Sample.read_args []
      = (inr (Some (Sample.Connector (Some "catalog.json"))), tr) /\
    printed tr = [] /\
    stdout tr = EmptyString.
Proof.
  split; [reflexivity | split; [reflexivity |]].
  apply (get_source_success_is_silent Sample.healthy Sample.read_args
           (Some "catalog.json")); reflexivity.
Defined.

Lemma main_without_source_witness :
  get_source Sample.invalid_config (tl Sample.argv) []
    = (inr None, snd (get_source Sample.invalid_config (tl Sample.argv) [])) /\
  launches (snd (main Sample.invalid_config Sample.argv [])) = [].
Proof.
  split; [reflexivity |].
  apply (main_without_source Sample.invalid_config Sample.argv
           (snd (get_source Sample.invalid_config (tl Sample.argv) []))).
  reflexivity.
Defined.

Lemma emitted_at_is_epoch_millis_witness :
  get_source Sample.invalid_config Sample.read_args []
    = (inr None, snd (get_source Sample.invalid_config Sample.read_args [])) /\
  In (error_line Sample.invalid_config Sample.ValidationError)
     (printed (snd (get_source Sample.invalid_config Sample.read_args []))) /\
  PyFloat.ltb (now_timestamp Sample.invalid_config) (S754_zero false) = false /\
  exists (n : Z) (st : string),
    PyFloat.to_int (PyFloat.mul (now_timestamp Sample.invalid_config) (PyFloat.of_Z 1000))
      = Some n /\
    0 <= n /\
    whole_millis (now_timestamp Sample.invalid_config) <= n
      <= whole_millis (now_timestamp Sample.invalid_config) + 1.
Proof.
  split; [reflexivity | split; [left; reflexivity | split; [reflexivity |]]].
  destruct (emitted_at_is_epoch_millis Sample.invalid_config Sample.read_args (inr None)
              (snd (get_source Sample.invalid_config Sample.read_args []))
              (error_line Sample.invalid_config Sample.ValidationError))
    as (n & st & _ & Hn & Hpos & Hnear).
  - reflexivity.
  - left; reflexivity.
  - reflexivity.
  - exists n, st. auto.
Defined.

Lemma get_source_empty_args_witness :
  extract_catalog Sample.invalid_config [] = inr None /\
  reports_failure Sample.invalid_config [] Sample.ValidationError.
Proof.
  split; [reflexivity |].
  apply (get_source_empty_args Sample.invalid_config); reflexivity.
Defined.

(** C8, as stated, fails: on the empty argument list too, a constructor
    that raises [SystemExit] is not caught; no absent value is returned
    and no record is written. *)
Lemma empty_args_system_exit_escapes :
  extract_catalog Sample.exiting_constructor [] = inr None /\
  construction Sample.exiting_constructor None = inl Sample.SystemExit /\
  get_source Sample.exiting_constructor [] []
    = (inl Sample.SystemExit,
       [CallExtractCatalog []; CallStreamReader;
        CallSourceS3 Sample.StreamReader Config None Cursor]) /\
  propagates Sample.exiting_constructor [] Sample.SystemExit /\
  ~ reports_failure Sample.exiting_constructor [] Sample.SystemExit.
Proof.
  split; [reflexivity | split; [reflexivity | split; [reflexivity | split]]].
  - eexists. split; reflexivity.
  - intros (tr & Hrun & _). discriminate Hrun.
Qed.

Lemma get_source_deterministic_witness :
  ts_seconds (now_timestamp Sample.invalid_config)
    = ts_seconds (now_timestamp Sample.invalid_config_interrupted) /\
  alike Sample.invalid_config Sample.invalid_config_interrupted
    (extract_catalog Sample.invalid_config Sample.read_args)
    (extract_catalog Sample.invalid_config_interrupted Sample.read_args) /\
  (forall c, alike Sample.invalid_config Sample.invalid_config_interrupted
               (construction Sample.invalid_config c)
               (construction Sample.invalid_config_interrupted c)) /\
  alike Sample.invalid_config Sample.invalid_config_interrupted
    (fst (get_source Sample.invalid_config Sample.read_args []))
    (fst (get_source Sample.invalid_config_interrupted Sample.read_args [])) /\
  stdout (snd (get_source Sample.invalid_config Sample.read_args []))
    = stdout (snd (get_source Sample.invalid_config_interrupted Sample.read_args [])).
Proof.
  assert (Hc : forall c, alike Sample.invalid_config Sample.invalid_config_interrupted
                           (construction Sample.invalid_config c)
                           (construction Sample.invalid_config_interrupted c))
    by (intros c; simpl; split; reflexivity).
  split; [reflexivity | split; [reflexivity | split; [exact Hc |]]].
  apply (get_source_deterministic Sample.invalid_config Sample.invalid_config_interrupted
           Sample.read_args); [reflexivity | reflexivity | exact Hc].
Defined.

(** * Further properties of the entry point *)

Section FurtherProperties.

Context {Exc Reader Source : Type}.
Variable env : Collaborators Exc Reader Source.

Lemma clock_reads_app (tr1 tr2 : trace Reader Source) :
  clock_reads (tr1 ++ tr2) = (clock_reads tr1 + clock_reads tr2)%nat.
Proof. unfold clock_reads. now rewrite filter_app, length_app. Qed.

Lemma tracebacks_app (tr1 tr2 : trace Reader Source) :
  tracebacks (tr1 ++ tr2) = (tracebacks tr1 + tracebacks tr2)%nat.
Proof. unfold tracebacks. now rewrite filter_app, length_app. Qed.

Lemma construction_reads_no_clock (c : option string) :
  clock_reads (construction_events env c) = 0%nat /\
  tracebacks (construction_events env c) = 0%nat.
Proof.
  unfold construction_events. destruct (SourceS3StreamReader env); split; reflexivity.
Qed.

(** X1.  The driver has no handler of its own: an exception that leaves
    [get_source] leaves the driver too, the launcher is not called and
    nothing is printed. *)
Theorem main_propagates_failure (argv : list string) (e : Exc) tr :
  get_source env (tl argv) [] = (inl e, tr) ->
  main env argv [] = (inl e, tr) /\
  launches (snd (main env argv [])) = [] /\
  printed (snd (main env argv [])) = [].
Proof.
  intros Hrun.
  assert (Hmain : main env argv [] = (inl e, tr))
    by (unfold main, bind; now rewrite Hrun).
  rewrite Hmain. cbn [snd]. apply get_source_inv in Hrun.
  split; [reflexivity | split].
  - now apply outcome_launches in Hrun.
  - apply outcome_printed in Hrun.
    destruct Hrun as [[_ Hp] | [Hr _]]; [exact Hp | discriminate Hr].
Qed.

(** X2.  A failure of the construction that is not an instance of
    [Exception] goes through [get_source] untouched: the same exception is
    raised to the caller right after the construction calls, nothing is
    printed, the clock is not read and no traceback is formatted. *)
Theorem get_source_lets_other_failures_through
    (args : list string) (c : option string) (e : Exc) :
  extract_catalog env args = inr c ->
  construction env c = inl e ->
  isinstance_Exception env e = false ->
  exists tr,
    get_source env args [] = (inl e, tr) /\
    tr = CallExtractCatalog args :: construction_events env c /\
    printed tr = [] /\
    clock_reads tr = 0%nat /\
    tracebacks tr = 0%nat.
Proof.
  intros Hx Hc He.
  exists (CallExtractCatalog args :: construction_events env c).
  destruct (construction_reads_no_clock c) as [Hk Ht].
  split; [now apply get_source_escaped | split; [reflexivity | split; [now observe |]]].
  split.
  - change (clock_reads ([CallExtractCatalog args] ++ construction_events env c) = 0%nat).
    now rewrite clock_reads_app, Hk.
  - change (tracebacks ([CallExtractCatalog args] ++ construction_events env c) = 0%nat).
    now rewrite tracebacks_app, Ht.
Qed.

(** X3.  The absent value is returned in one situation only: extraction
    returned, construction raised an [Exception], and the run ended with
    the clock read, the traceback formatted and the record of that
    exception printed, in this order. *)
Theorem absent_value_means_reported_failure (args : list string) tr :
  get_source env args [] = (inr None, tr) ->
  exists c e,
    extract_catalog env args = inr c /\
    construction env c = inl e /\
    isinstance_Exception env e = true /\
    tr = CallExtractCatalog args :: construction_events env c
           ++ [CallNow; CallFormatExc; Print (error_line env e)] /\
    printed tr = [error_line env e].
Proof.
  intros Hrun. apply get_source_inv in Hrun.
  inversion Hrun as [| | c e Hx Hc He |]; subst.
  exists c, e. repeat split; try assumption. now observe.
Qed.

(** X4.  The connector constructor is called exactly when the extraction
    returned and the stream reader was built, and then once, with the
    extracted catalog path; in every other run it is not called. *)
Theorem constructor_called_with_extracted_path (args : list string) :
  constructions (snd (get_source env args [])) =
  match extract_catalog env args, SourceS3StreamReader env with
  | inr c, inr _ => [c]
  | _, _ => []
  end.
Proof.
  rewrite get_source_run.
  destruct (extract_catalog env args) as [e | c]; [reflexivity |].
  cbv zeta. unfold construction, construction_events.
  destruct (SourceS3StreamReader env) as [e | reader].
  - destruct (isinstance_Exception env e); cbn [snd]; now observe.
  - destruct (SourceS3 env reader Config c Cursor) as [e | s];
      [destruct (isinstance_Exception env e) |]; cbn [snd]; now observe.
Qed.

(** X5.  The clock is read and a traceback is formatted only to build the
    record: in every run of [get_source], each happens as many times as
    lines are printed, that is once when the record is printed and not at
    all otherwise. *)
Theorem clock_read_only_to_report (args : list string) :
  clock_reads (snd (get_source env args [])) = List.length (printed (snd (get_source env args []))) /\
  tracebacks (snd (get_source env args [])) = List.length (printed (snd (get_source env args []))).
Proof.
  pose proof (get_source_outcome env args) as Ho.
  destruct (get_source env args []) as [r tr]. cbn [fst snd] in *.
  assert (Hcons : forall ev (t : trace Reader Source), ev :: t = [ev] ++ t) by reflexivity.
  inversion Ho as [e Hx | c s Hx Hc | c e Hx Hc He | c e Hx Hc He]; subst;
    try destruct (construction_reads_no_clock c) as [Hk Ht].
  - split; reflexivity.
  - rewrite Hcons, clock_reads_app, tracebacks_app, Hk, Ht. observe.
    split; reflexivity.
  - rewrite Hcons, !clock_reads_app, !tracebacks_app, Hk, Ht. observe.
    split; reflexivity.
  - rewrite Hcons, clock_reads_app, tracebacks_app, Hk, Ht. observe.
    split; reflexivity.
Qed.

(** X6.  Whatever the clock reads, before the epoch or after it, [int]
    returns without raising, and the [emitted_at] of every emitted record
    has the sign of the reading and, in magnitude, the whole milliseconds
    of the exact product of the reading and 1000, or one more. *)
Theorem emitted_at_sign_and_magnitude (args : list string) r tr (line : string) :
  get_source env args [] = (r, tr) ->
  In line (printed tr) ->
  exists (n : Z) (st : string),
    line = Models.json
             {| Models.type := Models.TRACE;
                Models.trace :=
                  {| Models.trace_type := Models.ERROR;
                     Models.emitted_at := n;
                     Models.error :=
                       {| Models.message := error_message;
                          Models.stack_trace := st |} |} |} /\
    PyFloat.to_int (PyFloat.mul (now_timestamp env) (PyFloat.of_Z 1000)) = Some n /\
    whole_millis (now_timestamp env) <= Z.abs n <= whole_millis (now_timestamp env) + 1 /\
    (PyFloat.ltb (now_timestamp env) (S754_zero false) = true -> n <= 0) /\
    (PyFloat.ltb (now_timestamp env) (S754_zero false) = false -> 0 <= n).
Proof.
  intros Hrun Hin. apply get_source_inv, outcome_printed in Hrun.
  destruct Hrun as [[_ Hp] | [_ (c & e & _ & _ & _ & Hp)]]; rewrite Hp in Hin.
  - destruct Hin.
  - destruct Hin as [<- | []].
    exists (epoch_millis (now_timestamp env)), (format_exc env e).
    split; [reflexivity | split; [apply epoch_millis_defined |]].
    destruct (ts_seconds (now_timestamp env)) as [s | s | | s m x] eqn:Hnow.
    + rewrite (epoch_millis_zero _ s Hnow). cbn. repeat split; try lia.
    + pose proof (ts_in_range (now_timestamp env)) as Ht. rewrite Hnow in Ht.
      discriminate Ht.
    + pose proof (ts_in_range (now_timestamp env)) as Ht. rewrite Hnow in Ht.
      discriminate Ht.
    + destruct (epoch_millis_accuracy _ s m x Hnow) as (n & -> & Hb).
      pose proof (millis_floor_nonneg m x) as H0.
      cbn [whole_millis]. destruct s; cbn [cond_Zopp].
      * repeat split; try lia. intros Hlt. discriminate Hlt.
      * repeat split; try lia. intros Hlt. discriminate Hlt.
Qed.

End FurtherProperties.

Section FurtherDriver.

Context {Exc Reader Source : Type}.
Variable env : Collaborators Exc Reader Source.

(** X7.  The launcher is called with nothing but what [get_source]
    returned and the process arguments after the program name: any launch
    the driver makes is of a handle [get_source] returned, which is truthy,
    on [sys.argv[1:]], and there is at most one. *)
Theorem launch_only_of_returned_handle (argv : list string) (s : Source) (a : list string) :
  In (s, a) (launches (snd (main env argv []))) ->
  a = tl argv /\
  fst (get_source env (tl argv) []) = inr (Some s) /\
  truthy env s = true /\
  launches (snd (main env argv [])) = [(s, a)].
Proof.
  pose proof (get_source_outcome env (tl argv)) as Ho.
  apply outcome_launches in Ho.
  unfold main, bind.
  destruct (get_source env (tl argv) []) as [[e | [s' |]] tr]; cbn [fst snd] in *.
  - rewrite Ho. intros [].
  - destruct (truthy env s') eqn:Hs; unfold call, ret; cbn [snd].
    + rewrite launches_app, Ho. cbn. intros [Heq | []].
      injection Heq as <- <-. auto.
    + rewrite Ho. intros [].
  - unfold ret. cbn [snd]. rewrite Ho. intros [].
Qed.

(** X8.  The driver tests the handle for truth, not for presence: a handle
    that is falsy is dropped, the launcher is not called and the driver
    returns normally, without a word on standard output. *)
Theorem main_drops_falsy_handle (argv : list string) (s : Source) tr :
  get_source env (tl argv) [] = (inr (Some s), tr) ->
  truthy env s = false ->
  main env argv [] = (inr tt, tr) /\
  launches (snd (main env argv [])) = [] /\
  printed (snd (main env argv [])) = [].
Proof.
  intros Hrun Hs.
  assert (Hmain : main env argv [] = (inr tt, tr))
    by (unfold main, bind; now rewrite Hrun, Hs).
  rewrite Hmain. cbn [snd]. apply get_source_inv in Hrun.
  split; [reflexivity | split].
  - now apply outcome_launches in Hrun.
  - apply outcome_printed in Hrun.
    destruct Hrun as [[_ Hp] | [Hr _]]; [exact Hp | discriminate Hr].
Qed.

End FurtherDriver.

(** ** The further properties on the sample runs *)

Lemma main_propagates_failure_witness :
  get_source Sample.rejecting_parser (tl Sample.argv) []
    = (inl Sample.SystemExit, [CallExtractCatalog Sample.read_args]) /\
  main Sample.rejecting_parser Sample.argv []
    = (inl Sample.SystemExit, [CallExtractCatalog Sample.read_args]) /\
  launches (snd (main Sample.rejecting_parser Sample.argv [])) = [].
Proof.
  split; [reflexivity |].
  destruct (main_propagates_failure Sample.rejecting_parser Sample.argv Sample.SystemExit
              [CallExtractCatalog Sample.read_args])
    as (Hmain & Hl & _); [reflexivity | auto].
Defined.

Lemma get_source_lets_other_failures_through_witness :
  extract_catalog Sample.exiting_constructor Sample.read_args = inr (Some "catalog.json") /\
  construction Sample.exiting_constructor (Some "catalog.json") = inl Sample.SystemExit /\
  isinstance_Exception Sample.exiting_constructor Sample.SystemExit = false /\
  exists tr,
    get_source Sample.exiting_constructor Sample.read_args [] = (inl Sample.SystemExit, tr) /\
    printed tr = [] /\
    clock_reads tr = 0%nat.
Proof.
  split; [reflexivity | split; [reflexivity | split; [reflexivity |]]].
  destruct (get_source_lets_other_failures_through Sample.exiting_constructor
              Sample.read_args (Some "catalog.json") Sample.SystemExit)
    as (tr & Hrun & _ & Hp & Hk & _); try reflexivity.
  exists tr. auto.
Defined.

Lemma absent_value_means_reported_failure_witness :
  get_source Sample.invalid_config Sample.read_args []
    = (inr None, snd (get_source Sample.invalid_config Sample.read_args [])) /\
  exists c e,
    extract_catalog Sample.invalid_config Sample.read_args = inr c /\
    construction Sample.invalid_config c = inl e /\
    isinstance_Exception Sample.invalid_config e = true.
Proof.
  split; [reflexivity |].
  destruct (absent_value_means_reported_failure Sample.invalid_config Sample.read_args
              (snd (get_source Sample.invalid_config Sample.read_args [])))
    as (c & e & Hx & Hc & He & _); [reflexivity |].
  exists c, e. auto.
Defined.

Lemma emitted_at_sign_and_magnitude_witness :
  get_source MoreSamples.invalid_config_in_1969 Sample.read_args []
    = (inr None, snd (get_source MoreSamples.invalid_config_in_1969 Sample.read_args [])) /\
  In (error_line MoreSamples.invalid_config_in_1969 Sample.ValidationError)
     (printed (snd (get_source MoreSamples.invalid_config_in_1969 Sample.read_args []))) /\
  PyFloat.ltb (now_timestamp MoreSamples.invalid_config_in_1969) (S754_zero false) = true /\
  exists n : Z,
    PyFloat.to_int (PyFloat.mul (now_timestamp MoreSamples.invalid_config_in_1969)
                                (PyFloat.of_Z 1000)) = Some n /\
    n <= 0 /\
    whole_millis (now_timestamp MoreSamples.invalid_config_in_1969) <= Z.abs n.
Proof.
  split; [reflexivity | split; [left; reflexivity | split; [reflexivity |]]].
  destruct (emitted_at_sign_and_magnitude MoreSamples.invalid_config_in_1969
              Sample.read_args (inr None)
              (snd (get_source MoreSamples.invalid_config_in_1969 Sample.read_args []))
              (error_line MoreSamples.invalid_config_in_1969 Sample.ValidationError))
    as (n & st & _ & Hn & Hb & Hneg & _).
  - reflexivity.
  - left; reflexivity.
  - exists n. split; [exact Hn | split; [apply Hneg; reflexivity | apply Hb]].
Defined.

Lemma launch_only_of_returned_handle_witness :
  In (Sample.Connector (Some "catalog.json"), Sample.read_args)
     (launches (snd (main Sample.healthy Sample.argv []))) /\
  Sample.read_args = tl Sample.argv /\
  fst (get_source Sample.healthy (tl Sample.argv) [])
    = inr (Some (Sample.Connector (Some "catalog.json"))).
Proof.
  split; [left; reflexivity |].
  destruct (launch_only_of_returned_handle Sample.healthy Sample.argv
              (Sample.Connector (Some "catalog.json")) Sample.read_args)
    as (Ha & Hr & _); [left; reflexivity | auto].
Defined.

Lemma main_drops_falsy_handle_witness :
  get_source MoreSamples.falsy_without_catalog
             (tl ("v4_main.py" :: MoreSamples.check_args)) []
    = (inr (Some (Sample.Connector None)),
       [CallExtractCatalog MoreSamples.check_args; CallStreamReader;
        CallSourceS3 Sample.StreamReader Config None Cursor]) /\
  truthy MoreSamples.falsy_without_catalog (Sample.Connector None) = false /\
  launches (snd (main MoreSamples.falsy_without_catalog
                      ("v4_main.py" :: MoreSamples.check_args) [])) = [].
Proof.
  split; [reflexivity | split; [reflexivity |]].
  destruct (main_drops_falsy_handle MoreSamples.falsy_without_catalog
              ("v4_main.py" :: MoreSamples.check_args) (Sample.Connector None)
              [CallExtractCatalog MoreSamples.check_args; CallStreamReader;
               CallSourceS3 Sample.StreamReader Config None Cursor])
    as (_ & Hl & _); [reflexivity | reflexivity | exact Hl].
Defined.

(** When the stream reader cannot be built, the connector constructor is
    not called, and the failure is reported like any other. *)
Example broken_reader_run :
  constructions (snd (get_source MoreSamples.broken_reader Sample.read_args [])) = [] /\
  fst (get_source MoreSamples.broken_reader Sample.read_args []) = inr None /\
  printed (snd (get_source MoreSamples.broken_reader Sample.read_args []))
    = [error_line MoreSamples.broken_reader Sample.ValueError].
Proof. repeat split. Qed.
